(** * Mental-health predictor: the hybrid decision layer and the tip generator

    A shallow embedding of [app_hybrid_final_v8.py]: the tip generator
    [generate_input_tips] (lines 18-44) and the body of [if submitted:]
    (lines 67-114), i.e. the feature encoding, the call of the model, the
    rule-based override, the blending of the confidence scores and the
    append to the session log; further the creation of the log in the
    session state (lines 14-15), the display of the result and of the
    tips (lines 118-139) and the numbering of the session log (lines
    165-168).

    Numbers.  The form delivers Python [int]s for age, quality of sleep,
    physical activity, stress level and daily steps; they are modelled as
    [Z].  [sleep_duration] and the confidence scores are floats in the
    program; they are modelled as rationals [Q]: every finite float is a
    rational, Python compares a float with an int by value, and [Q] keeps
    the products [score * 0.3] exact (the rounding of the binary product
    is not part of this model).

    Exceptions.  The three exceptions the modelled lines can raise are
    the constructors of [exn]; a computation that can raise lives in the
    [py] monad. *)

From Stdlib Require Import ZArith QArith Lqa Lia String List.
From stdpp Require Import base decidable list strings gmap.
Import ListNotations.

Local Open Scope string_scope.
Local Open Scope Z_scope.
Local Open Scope list_scope.

(** ** Python exceptions as an error monad *)

Inductive exn : Set :=
| ValueError   (* [list.index] of a missing element, [np.argmax] of an empty array *)
| KeyError     (* [label_map[k]] for a key that is not in the dict *)
| IndexError.  (* [l[i] = x] with [i] out of range *)

Inductive py (A : Type) : Type :=
| Ret (a : A)
| Raise (e : exn).
Arguments Ret {A} a.
Arguments Raise {A} e.

Definition bind {A B : Type} (m : py A) (k : A -> py B) : py B :=
  match m with
  | Ret a => k a
  | Raise e => Raise e
  end.

Notation "'let*' x ':=' m 'in' k" := (bind m (fun x => k))
  (at level 10, x name, m at level 100, k at level 200).

Definition returns {A : Type} (m : py A) : bool :=
  match m with Ret _ => true | Raise _ => false end.

(** ** Comparisons of the source *)

Definition Qlt_bool (x y : Q) : bool := negb (Qle_bool y x).

(** ** Data model *)

(** The eight values of the form, in the order in which
    [generate_input_tips] takes them. *)
Record UserInput : Type := mkUserInput {
  gender : string;
  age : Z;
  sleep_duration : Q;
  quality_of_sleep : Z;
  physical_activity : Z;
  stress_level : Z;
  bmi_category : string;
  daily_steps : Z
}.

(** ** Tip generator (lines 18-44) *)

Module Tips.

Definition low_sleep : string :=
  "😴 Try to increase your sleep to 7–9 hours consistently.".
Definition oversleep : string :=
  "😴 Oversleeping can also affect mood. Aim for 7–9 hours.".
Definition sleep_quality : string :=
  "🛌 Improve your sleep quality by maintaining a regular bedtime and avoiding screens before bed.".
Definition activity : string :=
  "🚶 Start light activities like walking to improve mood and sleep.".
Definition stress : string :=
  "🧘 High stress detected. Try mindfulness, breathing exercises, or short breaks during the day.".
Definition steps : string :=
  "👟 Increase your daily steps — aim for at least 5000–8000 per day.".
Definition diet : string :=
  "🍎 Consider a balanced diet and moderate exercise for better weight management.".
Definition elder_activity : string :=
  "🧓 Gentle exercises like stretching or tai chi can improve physical and mental well-being.".

End Tips.

(** [tips.append(t)] on the list built so far. *)
Definition append {A : Type} (l : list A) (x : A) : list A := l ++ [x].

Definition generate_input_tips
    (gender : string) (age : Z) (sleep_duration : Q) (quality_of_sleep : Z)
    (physical_activity : Z) (stress_level : Z) (bmi_category : string)
    (daily_steps : Z) : list string :=
  let tips := [] in
  let tips :=
    if Qlt_bool sleep_duration 6 then append tips Tips.low_sleep
    else if Qlt_bool 9 sleep_duration then append tips Tips.oversleep
    else tips in
  let tips :=
    if quality_of_sleep <? 4 then append tips Tips.sleep_quality else tips in
  let tips :=
    if physical_activity =? 0 then append tips Tips.activity else tips in
  let tips :=
    if stress_level >? 6 then append tips Tips.stress else tips in
  let tips :=
    if daily_steps <? 3000 then append tips Tips.steps else tips in
  let tips :=
    if String.eqb bmi_category "Obese" then append tips Tips.diet else tips in
  let tips :=
    if (age >? 60) && (physical_activity <? 3)
    then append tips Tips.elder_activity else tips in
  tips.

(** The call of line 133. *)
Definition generateTips (u : UserInput) : list string :=
  generate_input_tips (gender u) (age u) (sleep_duration u)
    (quality_of_sleep u) (physical_activity u) (stress_level u)
    (bmi_category u) (daily_steps u).

(** ** The hybrid layer (lines 67-98) *)

(** [l.index(x)]: the position of the first element equal to [x];
    [ValueError] when there is none. *)
Fixpoint index (x : string) (l : list string) : py nat :=
  match l with
  | [] => Raise ValueError
  | y :: l' =>
      if String.eqb y x then Ret 0%nat
      else let* i := index x l' in Ret (S i)
  end.

(** [l[i] = x] on a Python list: [IndexError] out of range. *)
Definition setitem {A : Type} (l : list A) (i : nat) (x : A) : py (list A) :=
  if (i <? length l)%nat then Ret (<[i:=x]> l) else Raise IndexError.

(** A dict literal keeps its insertion order; [d[k]] raises [KeyError]
    for a missing key and [d.values()] lists the values in order. *)
Definition dict (K V : Type) : Type := list (K * V).

Fixpoint getitem {V : Type} (d : dict nat V) (k : nat) : py V :=
  match d with
  | [] => Raise KeyError
  | (k', v) :: d' => if (k' =? k)%nat then Ret v else getitem d' k
  end.

Definition values {K V : Type} (d : dict K V) : list V := map snd d.

(** [np.argmax]: the index of the first maximum of the flattened array;
    [ValueError] for an empty one. *)
Fixpoint argmax_from (best_i : nat) (best : Q) (i : nat) (l : list Q) : nat :=
  match l with
  | [] => best_i
  | x :: l' =>
      if Qlt_bool best x then argmax_from i x (S i) l'
      else argmax_from best_i best (S i) l'
  end.

Definition np_argmax (a : list Q) : py nat :=
  match a with
  | [] => Raise ValueError
  | x :: a' => Ret (argmax_from 0 x 1 a')
  end.

(** [np.max]: the value of the first maximum. *)
Fixpoint max_from (best : Q) (l : list Q) : Q :=
  match l with
  | [] => best
  | x :: l' => if Qlt_bool best x then max_from x l' else max_from best l'
  end.

Definition np_max (a : list Q) : py Q :=
  match a with
  | [] => Raise ValueError
  | x :: a' => Ret (max_from x a')
  end.

(** The options of the BMI select box (lines 55 and 69). *)
Definition BMI_OPTIONS : list string :=
  ["Underweight"; "Normal"; "Overweight"; "Obese"].

Definition gender_val (u : UserInput) : Z :=
  if String.eqb (gender u) "Male" then 1 else 0.

Definition bmi_val (u : UserInput) : py nat :=
  index (bmi_category u) BMI_OPTIONS.

(** Lines 68-73: the row handed to the model.  [np.array] turns the
    mixed row into one array of floats. *)
Definition input_data (u : UserInput) : py (list Q) :=
  let gender_val := gender_val u in
  let* bmi_val := bmi_val u in
  Ret [inject_Z gender_val; inject_Z (age u); sleep_duration u;
       inject_Z (quality_of_sleep u); inject_Z (physical_activity u);
       inject_Z (stress_level u); inject_Z (Z.of_nat bmi_val);
       inject_Z (daily_steps u)].

Definition label_map : dict nat string :=
  [(0%nat, "No Disorder"); (1%nat, "Anxiety"); (2%nat, "Depression")].

(** Lines 83-90: the rule-based override, [None] when no rule fires. *)
Definition override (u : UserInput) : option string :=
  if (stress_level u >=? 9) && (quality_of_sleep u <=? 3) then
    Some "Anxiety"
  else if Qle_bool (sleep_duration u) 4 && (physical_activity u <=? 2)
          && (stress_level u >=? 6) then
    Some "Depression"
  else if (stress_level u <=? 3) && Qle_bool 7 (sleep_duration u)
          && (quality_of_sleep u >=? 7) && (physical_activity u >=? 4) then
    Some "No Disorder"
  else None.

(** Truth value of a string in [if override:]: only the empty string is
    false ([None], the other value [override] can hold, is false too). *)
Definition truthy (s : string) : bool := negb (String.eqb s "").

(** Lines 76-98, for the array [prediction] the model returned: the
    final label and the confidence scores. *)
Definition hybrid (u : UserInput) (prediction : list Q)
    : py (string * list Q) :=
  let* predicted_class := np_argmax prediction in
  let confidence_scores := prediction in
  let* result := getitem label_map predicted_class in
  match override u with
  | Some o =>
      if truthy o then
        let result := o in
        let* idx := index result (values label_map) in
        let confidence_scores :=
          map (fun score => (score * 0.3)%Q) confidence_scores in
        let* confidence_scores := setitem confidence_scores idx 0.7%Q in
        Ret (result, confidence_scores)
      else Ret (result, confidence_scores)
  | None => Ret (result, confidence_scores)
  end.

(** Lines 68-75: the model is called once, on the encoded row. *)
Definition prediction (model : list Q -> list Q) (u : UserInput)
    : py (list Q) :=
  let* input_data := input_data u in
  Ret (model input_data).

(** Lines 68-98: from the form values to label and confidence scores. *)
Definition classify (model : list Q -> list Q) (u : UserInput)
    : py (string * list Q) :=
  let* prediction := prediction model u in
  hybrid u prediction.

(** ** Session log (lines 101-114) and the whole submission *)

Record LogEntry : Type := mkLogEntry {
  Predicted : string;
  Confidence : Q;
  Input : UserInput
}.

(** Lines 67-114 and 133-134 of the body of [if submitted:], on the log
    of the session: the new log, the label and scores handed to the
    display, and the tips.  The display and the chart calls that follow
    (lines 116-162) are not part of it: [Ret] says that the log entry
    was written, not that the run of the script ends without an
    exception. *)
Definition submitted (model : list Q -> list Q) (logs : list LogEntry)
    (u : UserInput) : py (list LogEntry * (string * list Q) * list string) :=
  let* r := classify model u in
  let '(result, confidence_scores) := r in
  let* top := np_max confidence_scores in
  let logs := append logs (mkLogEntry result top u) in
  let input_tips := generateTips u in
  Ret (logs, (result, confidence_scores), input_tips).

(** ** What the claims speak of *)

(** [i] is the position of the first maximum of [a]: no entry is larger
    and every earlier entry is strictly smaller. *)
Definition first_max (a : list Q) (i : nat) : Prop :=
  exists x, a !! i = Some x
    /\ (forall j y, a !! j = Some y -> (y <= x)%Q)
    /\ (forall j y, (j < i)%nat -> a !! j = Some y -> (y < x)%Q).

(** The scores after an override: all softened, then one boosted. *)
Definition blend (idx : nat) (confidence_scores : list Q) : list Q :=
  <[idx:=0.7%Q]> (map (fun score => (score * 0.3)%Q) confidence_scores).

(** The rule set of the tip generator as the specification lists it:
    eight threshold rules in a fixed order, each a condition on the
    input with the one tip it contributes; the oversleep rule is the
    "else" of the low-sleep rule. *)
Definition tip_rules : list ((UserInput -> bool) * string) :=
  [ (fun u => Qlt_bool (sleep_duration u) 6, Tips.low_sleep);
    (fun u => negb (Qlt_bool (sleep_duration u) 6)
              && Qlt_bool 9 (sleep_duration u), Tips.oversleep);
    (fun u => quality_of_sleep u <? 4, Tips.sleep_quality);
    (fun u => physical_activity u =? 0, Tips.activity);
    (fun u => stress_level u >? 6, Tips.stress);
    (fun u => daily_steps u <? 3000, Tips.steps);
    (fun u => String.eqb (bmi_category u) "Obese", Tips.diet);
    (fun u => (age u >? 60) && (physical_activity u <? 3),
     Tips.elder_activity) ].

(** The tips of the rules whose condition holds, in the order of the
    rules. *)
Definition tips_by_rules (u : UserInput) : list string :=
  map snd (List.filter (fun rule => fst rule u) tip_rules).

(** A form input on which no override rule fires, and a model output
    with four entries whose maximum is among the first three. *)
Definition neutral_input : UserInput :=
  mkUserInput "Male" 25 6 5 5 5 "Normal" 5000.
Definition four_scores : list Q := [0.2; 0.5; 0.2; 0.1]%Q.

(** A form input on which most tip rules fire. *)
Definition tired_input : UserInput :=
  mkUserInput "Female" 70 5.5 2 0 9 "Obese" 10.

(** The input of the end-to-end example of the specification. *)
Definition example_input : UserInput :=
  mkUserInput "Male" 25 6 2 5 9 "Normal" 5000.

(** ** Display of the result and of the tips (lines 118-139) *)

(** The Streamlit elements these lines write, each with its text. *)
Inductive element : Type :=
| subheader (body : string)
| success (body : string)
| warning (body : string)
| error (body : string)
| markdown (body : string).

Module Texts.

Definition doing_well : string :=
  "✅ You're doing well! Maintain your routines and check in on your mental health regularly.".
Definition try_mindfulness : string :=
  "Try mindfulness, reduce screen time, maintain consistent sleep routine, and talk to someone you trust.".
Definition reach_out : string :=
  "Reach out to a mental health counselor, engage in light activity, avoid isolation, and track your sleep patterns.".
Definition look_great : string :=
  "✅ Your lifestyle inputs look great! Keep it up.".

End Texts.

(** Line 119. *)
Definition color (result : string) : string :=
  if String.eqb result "No Disorder" then "🟢"
  else if String.eqb result "Anxiety" then "🟠" else "🔴".

(** Lines 124-129: an [if]/[elif] chain without [else]. *)
Definition suggested_action (result : string) : list element :=
  if String.eqb result "No Disorder" then [success Texts.doing_well]
  else if String.eqb result "Anxiety" then [warning Texts.try_mindfulness]
  else if String.eqb result "Depression" then [error Texts.reach_out]
  else [].

(** Lines 135-139: one bullet per tip, or the message for an empty list. *)
Definition tips_section (input_tips : list string) : list element :=
  match input_tips with
  | [] => [markdown Texts.look_great]
  | _ :: _ => map (fun tip => markdown ("- " ++ tip)%string) input_tips
  end.

(** Lines 118-139 in the order in which the elements are written. *)
Definition result_display (result : string) (input_tips : list string)
    : list element :=
  [subheader "🧾 Prediction Result";
   success (color result ++ " **Predicted Condition:** " ++ result)%string;
   markdown "### 🧭 Suggested Early Action Steps"]
  ++ suggested_action result
  ++ [markdown "### 🧪 Personalized Wellness Tips Based on Your Input"]
  ++ tips_section input_tips.

(** ** Session state over the reruns of the script *)

(** [st.session_state], of which the script uses the key "logs". *)
Abbreviation session_state := (gmap string (list LogEntry)).

(** Lines 14-15: the log is created when the key is missing. *)
Definition init_logs (ss : session_state) : session_state :=
  match ss !! "logs" with
  | Some _ => ss
  | None => <["logs" := []]> ss
  end.

(** The log held by a session state (an empty one before the first run). *)
Definition logs_of (ss : session_state) : list LogEntry :=
  default [] (ss !! "logs").

(** The session state one run of the script leaves behind.  [form] is
    [Some u] when the run was started by the submit button with the form
    values [u], [None] for any other run.  The only writes are those of
    lines 15 and 101; an exception raised before line 101 ends the run
    with the log as it was. *)
Definition rerun (model : list Q -> list Q) (ss : session_state)
    (form : option UserInput) : session_state :=
  let ss := init_logs ss in
  match form with
  | None => ss
  | Some u =>
      match submitted model (logs_of ss) u with
      | Ret (logs, _, _) => <["logs" := logs]> ss
      | Raise _ => ss
      end
  end.

(** A session: the script run once per event, in order. *)
Definition session (model : list Q -> list Q) (ss : session_state)
    (forms : list (option UserInput)) : session_state :=
  fold_left (rerun model) forms ss.

(** The form values that were submitted, in order. *)
Definition submissions (forms : list (option UserInput)) : list UserInput :=
  omap id forms.

(** Lines 165-168: the log is walked newest first,
    [enumerate(logs[::-1])], and the entry met at position [i] is headed
    "Prediction #[len(logs) - i]".  The numbers and entries in the order
    of display; nothing is shown for an empty log. *)
Definition session_log_rows (logs : list LogEntry) : list (Z * LogEntry) :=
  match logs with
  | [] => []
  | _ :: _ =>
      imap (fun i log => (Z.of_nat (length logs) - Z.of_nat i, log))
        (reverse logs)
  end.

(** Closes a goal whose hypothesis equates a rule of the table with a
    rule carrying another tip. *)
Ltac other_tip H :=
  exfalso; apply (f_equal snd) in H; cbn [snd] in H; revert H;
  apply String.eqb_neq; vm_compute; reflexivity.

(** Reduces the presence of a tip to the condition of its rule in
    [tip_rules]; the lemma it applies is proved below. *)
Ltac by_rule_with lem :=
  etransitivity;
  [apply lem; unfold tip_rules; repeat first [left; reflexivity | right]
  |cbn beta].

(** ** Lemmas on the comparisons and on [np.argmax] *)

Lemma Qlt_bool_iff (x y : Q) : Qlt_bool x y = true <-> (x < y)%Q.
Proof.
  unfold Qlt_bool. rewrite negb_true_iff.
  split; intros H.
  - apply Qnot_le_lt. intros Hle. apply Qle_bool_iff in Hle. congruence.
  - destruct (Qle_bool y x) eqn:E; [|reflexivity].
    apply Qle_bool_iff in E. apply Qlt_not_le in H. contradiction.
Qed.

Lemma Qlt_bool_false (x y : Q) : Qlt_bool x y = false <-> (y <= x)%Q.
Proof.
  unfold Qlt_bool. rewrite negb_false_iff. apply Qle_bool_iff.
Qed.

(** The loop invariant of [argmax_from]: [pre] is the part of the array
    already seen, [best] its first maximum, found at [best_i]. *)
Lemma argmax_from_first_max (l pre : list Q) (best_i : nat) (best : Q) :
  pre !! best_i = Some best ->
  (forall j y, pre !! j = Some y -> (y <= best)%Q) ->
  (forall j y, (j < best_i)%nat -> pre !! j = Some y -> (y < best)%Q) ->
  first_max (pre ++ l) (argmax_from best_i best (length pre) l).
Proof.
  revert pre best_i best.
  induction l as [|x l IH]; intros pre best_i best Hbest Hle Hlt; simpl.
  - rewrite app_nil_r. exists best. auto.
  - replace (pre ++ x :: l) with ((pre ++ [x]) ++ l)
      by (rewrite <- app_assoc; reflexivity).
    replace (S (length pre)) with (length (pre ++ [x]))
      by (rewrite length_app; simpl; lia).
    destruct (Qlt_bool best x) eqn:E.
    + apply Qlt_bool_iff in E.
      apply IH.
      * rewrite lookup_app_r by lia. now rewrite Nat.sub_diag.
      * intros j y Hj.
        apply lookup_app_Some in Hj as [Hj | [_ Hj]].
        -- apply Qlt_le_weak. eapply Qle_lt_trans; [eapply Hle; eauto | assumption].
        -- destruct (j - length pre)%nat; simpl in Hj; [|discriminate].
           injection Hj as <-. apply Qle_refl.
      * intros j y Hji Hj.
        rewrite lookup_app_l in Hj by lia.
        eapply Qle_lt_trans; [eapply Hle; eauto | assumption].
    + apply Qlt_bool_false in E.
      assert (best_i < length pre)%nat by (eapply lookup_lt_Some; eauto).
      apply IH.
      * rewrite lookup_app_l by lia. assumption.
      * intros j y Hj.
        apply lookup_app_Some in Hj as [Hj | [_ Hj]]; [eauto|].
        destruct (j - length pre)%nat; simpl in Hj; [|discriminate].
        injection Hj as <-. assumption.
      * intros j y Hji Hj.
        rewrite lookup_app_l in Hj by lia. eauto.
Qed.

Lemma np_argmax_first_max (a : list Q) (i : nat) :
  np_argmax a = Ret i -> first_max a i.
Proof.
  destruct a as [|x a]; simpl; [discriminate|].
  intros [= <-].
  apply (argmax_from_first_max a [x] 0%nat x).
  - reflexivity.
  - intros [|j] y Hj; simpl in Hj; [|discriminate].
    injection Hj as <-. apply Qle_refl.
  - intros j y Hj. lia.
Qed.

Lemma np_argmax_nonempty (a : list Q) :
  a <> [] -> exists i, np_argmax a = Ret i.
Proof. destruct a; [congruence | simpl; eauto]. Qed.

(** A strict maximum is where [np.argmax] points. *)
Lemma np_argmax_strict_max (a : list Q) (i : nat) (x : Q) :
  a !! i = Some x ->
  (forall j y, j <> i -> a !! j = Some y -> (y < x)%Q) ->
  np_argmax a = Ret i.
Proof.
  intros Hi Hstrict.
  destruct (np_argmax_nonempty a) as [k Hk].
  { intros ->. discriminate. }
  rewrite Hk. f_equal.
  destruct (np_argmax_first_max _ _ Hk) as (z & Hz & Hle & _).
  destruct (decide (k = i)) as [|Hne]; [assumption|exfalso].
  specialize (Hstrict k z Hne Hz).
  specialize (Hle i x Hi).
  apply Qlt_not_le in Hstrict. contradiction.
Qed.

(** [np.max] is the entry at [np.argmax]. *)
Lemma max_from_argmax_from (l pre : list Q) (best_i : nat) (best : Q) :
  pre !! best_i = Some best ->
  (pre ++ l) !! argmax_from best_i best (length pre) l = Some (max_from best l).
Proof.
  revert pre best_i best.
  induction l as [|x l IH]; intros pre best_i best Hbest; simpl.
  - rewrite app_nil_r. assumption.
  - replace (pre ++ x :: l) with ((pre ++ [x]) ++ l)
      by (rewrite <- app_assoc; reflexivity).
    replace (S (length pre)) with (length (pre ++ [x]))
      by (rewrite length_app; simpl; lia).
    assert (best_i < length pre)%nat by (eapply lookup_lt_Some; eauto).
    destruct (Qlt_bool best x); apply IH.
    + rewrite lookup_app_r by lia. now rewrite Nat.sub_diag.
    + rewrite lookup_app_l by lia. assumption.
Qed.

Lemma np_max_at_argmax (a : list Q) (i : nat) :
  np_argmax a = Ret i -> exists x, a !! i = Some x /\ np_max a = Ret x.
Proof.
  destruct a as [|x a]; simpl; [discriminate|].
  intros [= <-]. exists (max_from x a). split; [|reflexivity].
  apply (max_from_argmax_from a [x] 0%nat x). reflexivity.
Qed.

(** ** Lemmas on the override rules and on the hybrid layer *)

Lemma override_Anxiety (u : UserInput) :
  9 <= stress_level u -> quality_of_sleep u <= 3 ->
  override u = Some "Anxiety".
Proof.
  intros Hs Hq. unfold override.
  rewrite Z.geb_leb.
  apply Z.leb_le in Hs, Hq. now rewrite Hs, Hq.
Qed.

Lemma override_Depression (u : UserInput) :
  (sleep_duration u <= 4)%Q -> physical_activity u <= 2 ->
  6 <= stress_level u ->
  ~ (9 <= stress_level u /\ quality_of_sleep u <= 3) ->
  override u = Some "Depression".
Proof.
  intros Hd Hp Hs Hno. unfold override.
  destruct ((stress_level u >=? 9) && (quality_of_sleep u <=? 3)) eqn:E.
  - apply andb_true_iff in E as [E1 E2].
    rewrite Z.geb_leb in E1. apply Z.leb_le in E1, E2. tauto.
  - rewrite Z.geb_leb.
    apply Qle_bool_iff in Hd. apply Z.leb_le in Hp, Hs.
    now rewrite Hd, Hp, Hs.
Qed.

Lemma override_No_Disorder (u : UserInput) :
  stress_level u <= 3 -> (7 <= sleep_duration u)%Q ->
  7 <= quality_of_sleep u -> 4 <= physical_activity u ->
  override u = Some "No Disorder".
Proof.
  intros Hs Hd Hq Hp. unfold override.
  assert (E1 : (stress_level u >=? 9) = false)
    by (rewrite Z.geb_leb; apply Z.leb_gt; lia).
  assert (E2 : (stress_level u >=? 6) = false)
    by (rewrite Z.geb_leb; apply Z.leb_gt; lia).
  rewrite E1, E2, andb_false_r. simpl.
  rewrite !Z.geb_leb.
  apply Qle_bool_iff in Hd. apply Z.leb_le in Hs, Hq, Hp.
  now rewrite Hs, Hd, Hq, Hp.
Qed.

(** The rules only ever name the three labels of [label_map]. *)
Lemma override_label (u : UserInput) (o : string) :
  override u = Some o ->
  o = "Anxiety" \/ o = "Depression" \/ o = "No Disorder".
Proof.
  unfold override.
  repeat match goal with
         | |- context [if ?b then _ else _] => destruct b
         end; intros [= <-]; auto.
Qed.

Lemma np_argmax_lt (a : list Q) (i : nat) :
  np_argmax a = Ret i -> (i < length a)%nat.
Proof.
  intros H. destruct (np_argmax_first_max _ _ H) as (x & Hx & _).
  eapply lookup_lt_Some; eauto.
Qed.

Lemma getitem_label_map (i : nat) :
  (i < 3)%nat -> exists lbl, getitem label_map i = Ret lbl.
Proof.
  intros H. destruct i as [|[|[|i]]]; simpl; eauto. lia.
Qed.

Lemma getitem_label_map_ge (i : nat) :
  (3 <= i)%nat -> getitem label_map i = Raise KeyError.
Proof.
  intros H. destruct i as [|[|[|i]]]; simpl; try lia. reflexivity.
Qed.

Lemma setitem_lt {A : Type} (l : list A) (i : nat) (x : A) :
  (i < length l)%nat -> setitem l i x = Ret (<[i:=x]> l).
Proof.
  intros H. unfold setitem. apply Nat.ltb_lt in H. now rewrite H.
Qed.

Lemma setitem_ge {A : Type} (l : list A) (i : nat) (x : A) :
  (length l <= i)%nat -> setitem l i x = Raise IndexError.
Proof.
  intros H. unfold setitem. apply Nat.ltb_ge in H. now rewrite H.
Qed.

Lemma hybrid_override (u : UserInput) (p : list Q) (o : string) :
  length p = 3%nat -> override u = Some o ->
  exists idx, (idx < 3)%nat
    /\ index o (values label_map) = Ret idx
    /\ getitem label_map idx = Ret o
    /\ hybrid u p = Ret (o, blend idx p).
Proof.
  intros Hlen Ho.
  destruct (np_argmax_nonempty p) as [i Hi].
  { intros ->. discriminate. }
  pose proof (np_argmax_lt _ _ Hi) as Hlt. rewrite Hlen in Hlt.
  destruct (getitem_label_map i Hlt) as [lbl Hlbl].
  unfold hybrid. rewrite Hi. cbn [bind]. rewrite Hlbl. cbn [bind].
  rewrite Ho.
  assert (Hset : forall idx, (idx < 3)%nat ->
            setitem (map (fun score => (score * 0.3)%Q) p) idx 0.7%Q
            = Ret (blend idx p)).
  { intros idx Hidx. apply setitem_lt. rewrite length_map. lia. }
  destruct (override_label _ _ Ho) as [-> | [-> | ->]];
    [exists 1%nat | exists 2%nat | exists 0%nat];
    (split; [lia|]); (split; [reflexivity|]); (split; [reflexivity|]);
    match goal with
    | |- context [index ?o (values label_map)] =>
        let r := eval vm_compute in (index o (values label_map)) in
        change (index o (values label_map)) with r;
        change (truthy o) with true
    end;
    cbn [bind]; rewrite Hset by lia; reflexivity.
Qed.

Lemma hybrid_no_override (u : UserInput) (p : list Q) :
  length p = 3%nat -> override u = None ->
  exists i lbl, np_argmax p = Ret i
    /\ getitem label_map i = Ret lbl
    /\ hybrid u p = Ret (lbl, p).
Proof.
  intros Hlen Ho.
  destruct (np_argmax_nonempty p) as [i Hi].
  { intros ->. discriminate. }
  pose proof (np_argmax_lt _ _ Hi) as Hlt. rewrite Hlen in Hlt.
  destruct (getitem_label_map i Hlt) as [lbl Hlbl].
  exists i, lbl. split; [assumption|]. split; [assumption|].
  unfold hybrid. rewrite Hi. cbn [bind]. rewrite Hlbl. cbn [bind].
  now rewrite Ho.
Qed.

Lemma classify_prediction (model : list Q -> list Q) (u : UserInput)
    (p : list Q) :
  prediction model u = Ret p -> classify model u = hybrid u p.
Proof. intros H. unfold classify. now rewrite H. Qed.

Lemma lookup_map {A B : Type} (f : A -> B) (l : list A) (j : nat) :
  map f l !! j = option_map f (l !! j).
Proof.
  revert j. induction l as [|a l IH]; intros [|j]; simpl; auto.
Qed.

Lemma blend_lookup_eq (idx : nat) (p : list Q) :
  (idx < length p)%nat -> blend idx p !! idx = Some 0.7%Q.
Proof.
  intros H. unfold blend. apply list_lookup_insert_eq.
  now rewrite length_map.
Qed.

Lemma blend_lookup_ne (idx j : nat) (p : list Q) :
  j <> idx ->
  blend idx p !! j = option_map (fun score => (score * 0.3)%Q) (p !! j).
Proof.
  intros H. unfold blend.
  rewrite list_lookup_insert_ne by congruence. apply lookup_map.
Qed.

Lemma length_blend (idx : nat) (p : list Q) : length (blend idx p) = length p.
Proof. unfold blend. now rewrite length_insert, length_map. Qed.

(** ** The override rules decide the label *)

(** C1.  Whenever the stress level is at least 9 and the quality of
    sleep at most 3, the label is "Anxiety", whatever three confidence
    scores the model returned. *)
Theorem classify_anxiety_rule (model : list Q -> list Q) (u : UserInput)
    (p : list Q) :
  prediction model u = Ret p -> length p = 3%nat ->
  9 <= stress_level u -> quality_of_sleep u <= 3 ->
  exists cs, classify model u = Ret ("Anxiety", cs).
Proof.
  intros Hp Hlen Hs Hq.
  rewrite (classify_prediction _ _ _ Hp).
  destruct (hybrid_override u p _ Hlen (override_Anxiety u Hs Hq))
    as (idx & _ & _ & _ & ->).
  eauto.
Qed.

Lemma classify_anxiety_rule_witness :
  exists cs,
    classify (fun _ => [0.1; 0.2; 0.7]%Q) example_input = Ret ("Anxiety", cs).
Proof.
  apply (classify_anxiety_rule _ example_input [0.1; 0.2; 0.7]%Q).
  - reflexivity.
  - reflexivity.
  - simpl. lia.
  - simpl. lia.
Defined.

(** C2.  When the anxiety rule does not apply, a sleep duration of at
    most 4 hours with physical activity at most 2 and stress level at
    least 6 gives the label "Depression", whatever three confidence
    scores the model returned. *)
Theorem classify_depression_rule (model : list Q -> list Q) (u : UserInput)
    (p : list Q) :
  prediction model u = Ret p -> length p = 3%nat ->
  (sleep_duration u <= 4)%Q -> physical_activity u <= 2 ->
  6 <= stress_level u ->
  ~ (9 <= stress_level u /\ quality_of_sleep u <= 3) ->
  exists cs, classify model u = Ret ("Depression", cs).
Proof.
  intros Hp Hlen Hd Hpa Hs Hno.
  rewrite (classify_prediction _ _ _ Hp).
  destruct (hybrid_override u p _ Hlen (override_Depression u Hd Hpa Hs Hno))
    as (idx & _ & _ & _ & ->).
  eauto.
Qed.

Lemma classify_depression_rule_witness :
  exists cs,
    classify (fun _ => [0.8; 0.1; 0.1]%Q)
      (mkUserInput "Female" 40 3.5 5 1 7 "Overweight" 2000)
    = Ret ("Depression", cs).
Proof.
  apply (classify_depression_rule _ _ [0.8; 0.1; 0.1]%Q).
  - reflexivity.
  - reflexivity.
  - vm_compute. discriminate.
  - simpl. lia.
  - simpl. lia.
  - simpl. lia.
Defined.

(** C3.  A stress level of at most 3 with at least 7 hours of sleep,
    quality of sleep at least 7 and physical activity at least 4 gives
    the label "No Disorder", whatever three confidence scores the model
    returned.  (With a stress level of at most 3 neither of the two
    rules of higher priority can match, so that side condition needs no
    hypothesis of its own.) *)
Theorem classify_no_disorder_rule (model : list Q -> list Q) (u : UserInput)
    (p : list Q) :
  prediction model u = Ret p -> length p = 3%nat ->
  stress_level u <= 3 -> (7 <= sleep_duration u)%Q ->
  7 <= quality_of_sleep u -> 4 <= physical_activity u ->
  exists cs, classify model u = Ret ("No Disorder", cs).
Proof.
  intros Hp Hlen Hs Hd Hq Hpa.
  rewrite (classify_prediction _ _ _ Hp).
  destruct (hybrid_override u p _ Hlen (override_No_Disorder u Hs Hd Hq Hpa))
    as (idx & _ & _ & _ & ->).
  eauto.
Qed.

Lemma classify_no_disorder_rule_witness :
  exists cs,
    classify (fun _ => [0.1; 0.1; 0.8]%Q)
      (mkUserInput "Female" 30 7.5 8 5 2 "Normal" 8000)
    = Ret ("No Disorder", cs).
Proof.
  apply (classify_no_disorder_rule _ _ [0.1; 0.1; 0.8]%Q).
  - reflexivity.
  - reflexivity.
  - simpl. lia.
  - vm_compute. discriminate.
  - simpl. lia.
  - simpl. lia.
Defined.

(** ** The confidence scores *)

(** C4.  When an override rule fires on a vector of three scores, the
    returned vector again has three entries: 0.7 at the class index of
    the override label, and at every other index 0.3 times the score the
    model gave, nothing being renormalised.  On the example of the
    specification the scores [0.1, 0.2, 0.7] become [0.03, 0.7, 0.21]
    under the "Anxiety" override. *)
Theorem override_blends_scores :
  (forall (model : list Q -> list Q) (u : UserInput) (p : list Q) (o : string),
      prediction model u = Ret p -> length p = 3%nat ->
      override u = Some o ->
      exists idx cs,
        getitem label_map idx = Ret o
        /\ classify model u = Ret (o, cs)
        /\ length cs = 3%nat
        /\ cs !! idx = Some 0.7%Q
        /\ (forall j score, j <> idx -> p !! j = Some score ->
              cs !! j = Some (score * 0.3)%Q))
  /\ classify (fun _ => [0.1; 0.2; 0.7]%Q) example_input
     = Ret ("Anxiety", [0.03; 0.7; 0.21]%Q).
Proof.
  split; [|reflexivity].
  intros model u p o Hp Hlen Ho.
  rewrite (classify_prediction _ _ _ Hp).
  destruct (hybrid_override u p o Hlen Ho) as (idx & Hidx & _ & Hget & ->).
  exists idx, (blend idx p).
  split; [assumption|]. split; [reflexivity|].
  split; [now rewrite length_blend|].
  split; [apply blend_lookup_eq; lia|].
  intros j score Hj Hscore.
  rewrite blend_lookup_ne by assumption. now rewrite Hscore.
Qed.

Lemma override_blends_scores_witness :
  exists idx cs,
    getitem label_map idx = Ret "Depression"
    /\ classify (fun _ => [0.5; 0.25; 0.25]%Q)
         (mkUserInput "Female" 40 3.5 5 1 7 "Overweight" 2000)
       = Ret ("Depression", cs)
    /\ length cs = 3%nat
    /\ cs !! idx = Some 0.7%Q
    /\ (forall j score, j <> idx ->
          [0.5; 0.25; 0.25]%Q !! j = Some score ->
          cs !! j = Some (score * 0.3)%Q).
Proof.
  apply (proj1 override_blends_scores
           (fun _ => [0.5; 0.25; 0.25]%Q)
           (mkUserInput "Female" 40 3.5 5 1 7 "Overweight" 2000)).
  - reflexivity.
  - reflexivity.
  - reflexivity.
Defined.

(** C5.  When no override rule fires on a vector of three scores, the
    label is the class name at the first maximum of the vector (no entry
    is larger, every earlier entry is strictly smaller): "No Disorder"
    for index 0, "Anxiety" for index 1, "Depression" for index 2; and
    the scores are returned as the model gave them. *)
Theorem no_override_keeps_model_output (model : list Q -> list Q)
    (u : UserInput) (p : list Q) :
  prediction model u = Ret p -> length p = 3%nat ->
  override u = None ->
  exists i lbl,
    first_max p i
    /\ ["No Disorder"; "Anxiety"; "Depression"] !! i = Some lbl
    /\ classify model u = Ret (lbl, p).
Proof.
  intros Hp Hlen Ho.
  rewrite (classify_prediction _ _ _ Hp).
  destruct (hybrid_no_override u p Hlen Ho) as (i & lbl & Hi & Hlbl & ->).
  exists i, lbl. split; [now apply np_argmax_first_max|].
  split; [|reflexivity].
  pose proof (np_argmax_lt _ _ Hi) as Hlt. rewrite Hlen in Hlt.
  destruct i as [|[|[|i]]]; [| | |lia];
    cbn in Hlbl; injection Hlbl as <-; reflexivity.
Qed.

Lemma no_override_keeps_model_output_witness :
  exists i lbl,
    first_max [0.2; 0.4; 0.4]%Q i
    /\ ["No Disorder"; "Anxiety"; "Depression"] !! i = Some lbl
    /\ classify (fun _ => [0.2; 0.4; 0.4]%Q)
         (mkUserInput "Male" 25 6 5 5 5 "Normal" 5000)
       = Ret (lbl, [0.2; 0.4; 0.4]%Q).
Proof.
  apply (no_override_keeps_model_output _ _ [0.2; 0.4; 0.4]%Q).
  - reflexivity.
  - reflexivity.
  - reflexivity.
Defined.

(** With two equal maxima the first one gives the label. *)
Example tie_takes_lowest_index :
  classify (fun _ => [0.2; 0.4; 0.4]%Q)
    (mkUserInput "Male" 25 6 5 5 5 "Normal" 5000)
  = Ret ("Anxiety", [0.2; 0.4; 0.4]%Q).
Proof. reflexivity. Qed.

(** C9.  When an override rule fires on three scores that all lie
    between 0 and 1, the 0.7 at the class index of the override label is
    the strict maximum of the returned scores: [np.argmax] of them is
    that index, [np.max] of them is 0.7, and the entry appended to the
    session log records the override label with confidence 0.7. *)
Theorem override_score_is_top (model : list Q -> list Q) (u : UserInput)
    (p : list Q) (o : string) :
  prediction model u = Ret p -> length p = 3%nat ->
  (forall j score, p !! j = Some score -> (0 <= score <= 1)%Q) ->
  override u = Some o ->
  exists idx cs,
    getitem label_map idx = Ret o
    /\ classify model u = Ret (o, cs)
    /\ cs !! idx = Some 0.7%Q
    /\ (forall j y, j <> idx -> cs !! j = Some y -> (y < 0.7)%Q)
    /\ np_argmax cs = Ret idx
    /\ np_max cs = Ret 0.7%Q
    /\ (forall logs,
          submitted model logs u
          = Ret (append logs (mkLogEntry o 0.7%Q u), (o, cs), generateTips u)).
Proof.
  intros Hp Hlen Hrange Ho.
  pose proof (classify_prediction _ _ _ Hp) as Hc.
  destruct (hybrid_override u p o Hlen Ho) as (idx & Hidx & _ & Hget & Hh).
  rewrite Hh in Hc.
  assert (Hat : blend idx p !! idx = Some 0.7%Q)
    by (apply blend_lookup_eq; lia).
  assert (Hstrict : forall j y, j <> idx -> blend idx p !! j = Some y ->
                      (y < 0.7)%Q).
  { intros j y Hj Hy. rewrite blend_lookup_ne in Hy by assumption.
    destruct (p !! j) as [score|] eqn:E; simpl in Hy; [|discriminate].
    injection Hy as <-. specialize (Hrange _ _ E). lra. }
  assert (Harg : np_argmax (blend idx p) = Ret idx)
    by (eapply np_argmax_strict_max; eauto).
  assert (Hmax : np_max (blend idx p) = Ret 0.7%Q).
  { destruct (np_max_at_argmax _ _ Harg) as (x & Hx & ->). congruence. }
  exists idx, (blend idx p). repeat (split; [assumption|]).
  intros logs. unfold submitted. rewrite Hc. cbn [bind].
  rewrite Hmax. reflexivity.
Qed.

Lemma override_score_is_top_witness :
  exists idx cs,
    getitem label_map idx = Ret "Anxiety"
    /\ classify (fun _ => [0.1; 0.2; 0.7]%Q) example_input = Ret ("Anxiety", cs)
    /\ cs !! idx = Some 0.7%Q
    /\ (forall j y, j <> idx -> cs !! j = Some y -> (y < 0.7)%Q)
    /\ np_argmax cs = Ret idx
    /\ np_max cs = Ret 0.7%Q
    /\ (forall logs,
          submitted (fun _ => [0.1; 0.2; 0.7]%Q) logs example_input
          = Ret (append logs (mkLogEntry "Anxiety" 0.7%Q example_input),
                 ("Anxiety", cs), generateTips example_input)).
Proof.
  apply (override_score_is_top _ example_input [0.1; 0.2; 0.7]%Q).
  - reflexivity.
  - reflexivity.
  - intros [|[|[|j]]] score H; simpl in H; try discriminate;
      injection H as <-; split; vm_compute; discriminate.
  - reflexivity.
Defined.

(** ** The feature encoding *)

(** C6.  For a BMI category of the select box, the encoded row is the
    eight numbers gender, age, sleep duration, quality of sleep,
    physical activity, stress level, BMI category and daily steps, in
    this order; the gender is encoded as 1 for "Male" and 0 for
    "Female", and the BMI category as its position in
    [Underweight, Normal, Overweight, Obese]. *)
Theorem input_data_encoding (u : UserInput) :
  In (bmi_category u) BMI_OPTIONS ->
  exists g b : Z,
    input_data u
    = Ret [inject_Z g; inject_Z (age u); sleep_duration u;
           inject_Z (quality_of_sleep u); inject_Z (physical_activity u);
           inject_Z (stress_level u); inject_Z b; inject_Z (daily_steps u)]
    /\ (gender u = "Male" -> g = 1)
    /\ (gender u = "Female" -> g = 0)
    /\ BMI_OPTIONS !! Z.to_nat b = Some (bmi_category u)
    /\ (bmi_category u = "Underweight" -> b = 0)
    /\ (bmi_category u = "Normal" -> b = 1)
    /\ (bmi_category u = "Overweight" -> b = 2)
    /\ (bmi_category u = "Obese" -> b = 3).
Proof.
  intros Hbmi.
  assert (Hg : (gender u = "Male" -> gender_val u = 1)
               /\ (gender u = "Female" -> gender_val u = 0)).
  { unfold gender_val. split; intros ->; reflexivity. }
  destruct Hg as [HgM HgF].
  unfold input_data, bmi_val.
  simpl in Hbmi.
  destruct Hbmi as [E | [E | [E | [E | []]]]]; rewrite <- E in *;
    [exists (gender_val u), 0 | exists (gender_val u), 1
    | exists (gender_val u), 2 | exists (gender_val u), 3];
    (split; [reflexivity|]);
    (split; [assumption|]); (split; [assumption|]);
    (split; [reflexivity|]);
    repeat split; intros; first [reflexivity | discriminate].
Qed.

Lemma input_data_encoding_witness :
  exists g b : Z,
    input_data example_input
    = Ret [inject_Z g; inject_Z 25; 6%Q; inject_Z 2; inject_Z 5;
           inject_Z 9; inject_Z b; inject_Z 5000]
    /\ (gender example_input = "Male" -> g = 1)
    /\ (gender example_input = "Female" -> g = 0)
    /\ BMI_OPTIONS !! Z.to_nat b = Some (bmi_category example_input)
    /\ (bmi_category example_input = "Underweight" -> b = 0)
    /\ (bmi_category example_input = "Normal" -> b = 1)
    /\ (bmi_category example_input = "Overweight" -> b = 2)
    /\ (bmi_category example_input = "Obese" -> b = 3).
Proof.
  apply (input_data_encoding example_input).
  simpl. auto.
Defined.

(** The row of the example: a man of 25 with a normal BMI. *)
Example input_data_example :
  input_data example_input = Ret [1; 25; 6; 2; 5; 9; 1; 5000]%Q.
Proof. reflexivity. Qed.

(** ** The tip generator *)

Lemma generateTips_tips_by_rules (u : UserInput) :
  generateTips u = tips_by_rules u.
Proof.
  unfold generateTips, generate_input_tips, tips_by_rules, tip_rules.
  cbn [List.filter fst snd].
  destruct (Qlt_bool (sleep_duration u) 6);
    destruct (Qlt_bool 9 (sleep_duration u));
    destruct (quality_of_sleep u <? 4);
    destruct (physical_activity u =? 0);
    destruct (stress_level u >? 6);
    destruct (daily_steps u <? 3000);
    destruct (String.eqb (bmi_category u) "Obese");
    destruct (age u >? 60);
    destruct (physical_activity u <? 3);
    reflexivity.
Qed.

Lemma tips_distinct : NoDup (map snd tip_rules).
Proof. apply (bool_decide_unpack _). vm_compute. exact I. Qed.

Lemma NoDup_map_filter {A B : Type} (f : A -> B) (c : A -> bool) (l : list A) :
  NoDup (map f l) -> NoDup (map f (List.filter c l)).
Proof.
  induction l as [|a l IH]; simpl; intros H; [constructor|].
  apply NoDup_cons in H as [Hnotin Hnd].
  destruct (c a); simpl; [|auto].
  apply NoDup_cons. split; [|auto].
  rewrite list_elem_of_In in *. rewrite in_map_iff in *.
  intros (b & Hb & Hin). apply Hnotin. exists b. split; [assumption|].
  apply List.filter_In in Hin. tauto.
Qed.

(** A tip is produced exactly when a rule carrying it holds. *)
Lemma In_tips_by_rules (t : string) (u : UserInput) :
  In t (tips_by_rules u) <->
  exists c, In (c, t) tip_rules /\ c u = true.
Proof.
  unfold tips_by_rules. rewrite in_map_iff. split.
  - intros ([c t'] & Ht & Hin). simpl in Ht. subst t'.
    apply List.filter_In in Hin as [Hin Hc]. eauto.
  - intros (c & Hin & Hc). exists (c, t). split; [reflexivity|].
    apply List.filter_In. auto.
Qed.

Lemma low_sleep_rule (c : UserInput -> bool) (u : UserInput) :
  In (c, Tips.low_sleep) tip_rules -> c u = true ->
  Qlt_bool (sleep_duration u) 6 = true.
Proof.
  intros Hin Hc. simpl in Hin.
  destruct Hin as [H|[H|[H|[H|[H|[H|[H|[H|[]]]]]]]]];
    [|other_tip H..].
  apply (f_equal fst) in H. cbn [fst] in H. subst c. assumption.
Qed.

Lemma oversleep_rule (c : UserInput -> bool) (u : UserInput) :
  In (c, Tips.oversleep) tip_rules -> c u = true ->
  Qlt_bool (sleep_duration u) 6 = false.
Proof.
  intros Hin Hc. simpl in Hin.
  destruct Hin as [H|[H|[H|[H|[H|[H|[H|[H|[]]]]]]]]];
    [other_tip H| |other_tip H..].
  apply (f_equal fst) in H. cbn [fst] in H. subst c.
  apply andb_true_iff in Hc as [Hc _]. now apply negb_true_iff in Hc.
Qed.

(** C7.  The tips are those of the eight threshold rules whose condition
    holds, in the order of the rules, each at most once; the low-sleep
    tip and the oversleep tip never come together; the input of the
    specification's example (for either gender) gets no tip at all. *)
Theorem generateTips_rule_set :
  length tip_rules = 8%nat
  /\ (forall u, generateTips u = tips_by_rules u)
  /\ (forall u, NoDup (generateTips u))
  /\ (forall u, ~ (In Tips.low_sleep (generateTips u)
                   /\ In Tips.oversleep (generateTips u)))
  /\ (forall g, generateTips (mkUserInput g 30 7 8 5 2 "Normal" 8000) = []).
Proof.
  split; [reflexivity|].
  split; [exact generateTips_tips_by_rules|].
  split; [|split].
  - intros u. rewrite generateTips_tips_by_rules.
    apply NoDup_map_filter, tips_distinct.
  - intros u. rewrite generateTips_tips_by_rules.
    rewrite !In_tips_by_rules.
    intros [(c1 & Hin1 & Hc1) (c2 & Hin2 & Hc2)].
    pose proof (low_sleep_rule _ _ Hin1 Hc1).
    pose proof (oversleep_rule _ _ Hin2 Hc2).
    congruence.
  - intros g. reflexivity.
Qed.

Lemma generateTips_rule_set_witness :
  generateTips tired_input = tips_by_rules tired_input
  /\ ~ (In Tips.low_sleep (generateTips tired_input)
        /\ In Tips.oversleep (generateTips tired_input)).
Proof.
  split.
  - apply (proj1 (proj2 generateTips_rule_set) tired_input).
  - apply (proj1 (proj2 (proj2 (proj2 generateTips_rule_set))) tired_input).
Defined.

(** All seven tips one input can collect, in order. *)
Example tired_input_tips :
  generateTips tired_input
  = [Tips.low_sleep; Tips.sleep_quality; Tips.activity; Tips.stress;
     Tips.steps; Tips.diet; Tips.elder_activity].
Proof. reflexivity. Qed.

(** C10.  Two inputs that agree on every field but the gender get the
    same tips. *)
Theorem generateTips_ignores_gender (u1 u2 : UserInput) :
  age u1 = age u2 ->
  sleep_duration u1 = sleep_duration u2 ->
  quality_of_sleep u1 = quality_of_sleep u2 ->
  physical_activity u1 = physical_activity u2 ->
  stress_level u1 = stress_level u2 ->
  bmi_category u1 = bmi_category u2 ->
  daily_steps u1 = daily_steps u2 ->
  generateTips u1 = generateTips u2.
Proof.
  intros Ha Hd Hq Hp Hs Hb Hn.
  unfold generateTips, generate_input_tips.
  now rewrite Ha, Hd, Hq, Hp, Hs, Hb, Hn.
Qed.

Lemma generateTips_ignores_gender_witness :
  generateTips tired_input
  = generateTips (mkUserInput "Male" 70 5.5 2 0 9 "Obese" 10).
Proof.
  apply (generateTips_ignores_gender tired_input
           (mkUserInput "Male" 70 5.5 2 0 9 "Obese" 10));
    reflexivity.
Defined.

(** ** Model outputs that are not three scores *)

Lemma override_truthy (u : UserInput) (o : string) :
  override u = Some o -> truthy o = true.
Proof.
  intros H. destruct (override_label _ _ H) as [-> | [-> | ->]]; reflexivity.
Qed.

(** C8, as the code has it.  The model output is not validated.  Four
    scores whose first maximum is among the first three are classified
    like three scores, and the log entry is written. *)
Lemma four_scores_accepted :
  length four_scores <> 3%nat
  /\ prediction (fun _ => four_scores) neutral_input = Ret four_scores
  /\ classify (fun _ => four_scores) neutral_input
     = Ret ("Anxiety", four_scores)
  /\ submitted (fun _ => four_scores) [] neutral_input
     = Ret ([mkLogEntry "Anxiety" 0.5%Q neutral_input],
            ("Anxiety", four_scores), []).
Proof.
  split; [discriminate|]. repeat split.
Qed.

(** C8, amended.  For the output [p] of the model: an empty [p] raises
    [ValueError]; a first maximum at index 3 or later raises [KeyError];
    an override whose class index lies outside [p] raises [IndexError];
    every other [p], of whatever length, is classified.  An exception of
    the classification ends the submission: it is raised to the caller
    and no log is returned. *)
Theorem model_output_not_validated (model : list Q -> list Q)
    (u : UserInput) (p : list Q) :
  prediction model u = Ret p ->
  (p = [] -> classify model u = Raise ValueError)
  /\ (forall i, np_argmax p = Ret i -> (3 <= i)%nat ->
        classify model u = Raise KeyError)
  /\ (forall i o idx, np_argmax p = Ret i -> (i < 3)%nat ->
        override u = Some o -> index o (values label_map) = Ret idx ->
        (length p <= idx)%nat ->
        classify model u = Raise IndexError)
  /\ (forall i, np_argmax p = Ret i -> (i < 3)%nat ->
        (override u = None
         \/ exists o idx, override u = Some o
              /\ index o (values label_map) = Ret idx
              /\ (idx < length p)%nat) ->
        returns (classify model u) = true)
  /\ (forall e logs, classify model u = Raise e ->
        submitted model logs u = Raise e).
Proof.
  intros Hp. rewrite (classify_prediction _ _ _ Hp).
  split; [intros ->; reflexivity|].
  split.
  { intros i Hi Hge. unfold hybrid. rewrite Hi. cbn [bind].
    now rewrite getitem_label_map_ge. }
  split.
  { intros i o idx Hi Hlt Ho Hidx Hlen.
    destruct (getitem_label_map i Hlt) as [lbl Hlbl].
    unfold hybrid. rewrite Hi. cbn [bind]. rewrite Hlbl. cbn [bind].
    rewrite Ho, (override_truthy _ _ Ho), Hidx. cbn [bind].
    rewrite setitem_ge by (now rewrite length_map). reflexivity. }
  split.
  { intros i Hi Hlt Hov.
    destruct (getitem_label_map i Hlt) as [lbl Hlbl].
    unfold hybrid. rewrite Hi. cbn [bind]. rewrite Hlbl. cbn [bind].
    destruct Hov as [-> | (o & idx & Ho & Hidx & Hlen)]; [reflexivity|].
    rewrite Ho, (override_truthy _ _ Ho), Hidx. cbn [bind].
    rewrite setitem_lt by (now rewrite length_map). reflexivity. }
  intros e logs He. unfold submitted, classify.
  rewrite Hp. cbn [bind]. now rewrite He.
Qed.

Lemma model_output_not_validated_witness :
  classify (fun _ => [0.9]%Q) example_input = Raise IndexError
  /\ returns (classify (fun _ => four_scores) neutral_input) = true.
Proof.
  split.
  - apply (proj1 (proj2 (proj2
             (model_output_not_validated (fun _ => [0.9]%Q) example_input
                [0.9]%Q eq_refl)))
             0%nat "Anxiety" 1%nat);
      first [reflexivity | simpl; lia].
  - apply (proj1 (proj2 (proj2 (proj2
             (model_output_not_validated (fun _ => four_scores)
                neutral_input four_scores eq_refl))))
             1%nat); [reflexivity | lia | left; reflexivity].
Defined.

(** ** Further properties of the override rules and of the result *)

Lemma Qle_bool_gt (x y : Q) : Qle_bool x y = false <-> (y < x)%Q.
Proof.
  rewrite <- Qlt_bool_iff. unfold Qlt_bool. now rewrite negb_true_iff.
Qed.

(** Turns the boolean tests of the override rules in the context into
    the comparisons they decide. *)
Ltac reflect_tests :=
  repeat match goal with
         | H : (_ && _)%bool = true |- _ => apply andb_true_iff in H as [? ?]
         | H : (_ && _)%bool = false |- _ =>
             apply andb_false_iff in H as [H | H]
         | H : (_ <=? _) = true |- _ => apply Z.leb_le in H
         | H : (_ <=? _) = false |- _ => apply Z.leb_gt in H
         | H : Qle_bool _ _ = true |- _ => apply Qle_bool_iff in H
         | H : Qle_bool _ _ = false |- _ => apply Qle_bool_gt in H
         end.

(** X1.  Each outcome of the override block is decided by the form
    values alone: "Anxiety" exactly under the first rule, "Depression"
    exactly under the second when the first fails, "No Disorder" exactly
    under the third, and no override exactly when no rule holds. *)
Theorem override_characterisation (u : UserInput) :
  (override u = Some "Anxiety"
   <-> 9 <= stress_level u /\ quality_of_sleep u <= 3)
  /\ (override u = Some "Depression"
      <-> ~ (9 <= stress_level u /\ quality_of_sleep u <= 3)
          /\ (sleep_duration u <= 4)%Q /\ physical_activity u <= 2
          /\ 6 <= stress_level u)
  /\ (override u = Some "No Disorder"
      <-> stress_level u <= 3 /\ (7 <= sleep_duration u)%Q
          /\ 7 <= quality_of_sleep u /\ 4 <= physical_activity u)
  /\ (override u = None
      <-> ~ (9 <= stress_level u /\ quality_of_sleep u <= 3)
          /\ ~ ((sleep_duration u <= 4)%Q /\ physical_activity u <= 2
                /\ 6 <= stress_level u)
          /\ ~ (stress_level u <= 3 /\ (7 <= sleep_duration u)%Q
                /\ 7 <= quality_of_sleep u /\ 4 <= physical_activity u)).
Proof.
  unfold override. rewrite !Z.geb_leb.
  destruct ((9 <=? stress_level u) && (quality_of_sleep u <=? 3)) eqn:E1;
    [|destruct (Qle_bool (sleep_duration u) 4 && (physical_activity u <=? 2)
                && (6 <=? stress_level u)) eqn:E2;
      [|destruct ((stress_level u <=? 3) && Qle_bool 7 (sleep_duration u)
                  && (7 <=? quality_of_sleep u)
                  && (4 <=? physical_activity u)) eqn:E3]];
    reflect_tests;
    repeat split; intros; try discriminate; try lia; try assumption;
    try solve [intuition (first [lia | lra])];
    try solve [exfalso; intuition (first [lia | lra])].
Qed.

Lemma getitem_In {V : Type} (d : dict nat V) (k : nat) (v : V) :
  getitem d k = Ret v -> In v (values d).
Proof.
  induction d as [|[k' v'] d IH]; simpl; [discriminate|].
  destruct (k' =? k)%nat; [intros [= ->]; auto | auto].
Qed.

Lemma hybrid_result (u : UserInput) (p : list Q) (label : string)
    (cs : list Q) :
  hybrid u p = Ret (label, cs) ->
  In label (values label_map) /\ length cs = length p /\ p <> [].
Proof.
  unfold hybrid. intros H.
  destruct (np_argmax p) as [i|] eqn:Hi; cbn [bind] in H; [|discriminate].
  assert (Hne : p <> []) by (intros ->; discriminate).
  destruct (getitem label_map i) as [lbl|] eqn:Hlbl; cbn [bind] in H;
    [|discriminate].
  apply getitem_In in Hlbl.
  destruct (override u) as [o|] eqn:Ho.
  - rewrite (override_truthy _ _ Ho) in H.
    destruct (index o (values label_map)) as [idx|]; cbn [bind] in H;
      [|discriminate].
    unfold setitem in H.
    destruct (idx <? length _)%nat; cbn [bind] in H; [|discriminate].
    injection H as <- <-.
    split; [|split; [now rewrite length_insert, length_map | assumption]].
    destruct (override_label _ _ Ho) as [-> | [-> | ->]]; simpl; auto.
  - injection H as <- <-. auto.
Qed.

(** X2.  Whatever the model returns, a classification that does not
    raise gives one of the three labels of [label_map] and as many
    scores as the model gave, at least one. *)
Theorem classify_result (model : list Q -> list Q) (u : UserInput)
    (label : string) (cs : list Q) :
  classify model u = Ret (label, cs) ->
  (label = "No Disorder" \/ label = "Anxiety" \/ label = "Depression")
  /\ exists x, input_data u = Ret x
       /\ length cs = length (model x) /\ cs <> [].
Proof.
  unfold classify, prediction. intros H.
  destruct (input_data u) as [x|]; cbn [bind] in H; [|discriminate].
  apply hybrid_result in H as (Hin & Hlen & Hne).
  split.
  - simpl in Hin. intuition.
  - exists x. split; [reflexivity|]. split; [assumption|].
    intros ->. destruct (model x); [congruence | discriminate].
Qed.

Lemma classify_result_witness :
  ("Anxiety" = "No Disorder" \/ "Anxiety" = "Anxiety"
   \/ "Anxiety" = "Depression")
  /\ exists x, input_data neutral_input = Ret x
       /\ length four_scores = length (four_scores) /\ four_scores <> [].
Proof.
  apply (classify_result (fun _ => four_scores) neutral_input
           "Anxiety" four_scores).
  reflexivity.
Defined.

Lemma index_In (x : string) (l : list string) :
  returns (index x l) = true <-> In x l.
Proof.
  induction l as [|y l IH]; simpl; [split; [discriminate | tauto]|].
  destruct (String.eqb_spec y x) as [->|Hne]; simpl.
  - tauto.
  - destruct (index x l); simpl in *; split; intros H.
    + right. now apply IH.
    + reflexivity.
    + discriminate.
    + destruct H as [H|H]; [contradiction|]. now apply IH in H.
Qed.

Lemma index_not_In (x : string) (l : list string) :
  ~ In x l -> index x l = Raise ValueError.
Proof.
  induction l as [|y l IH]; simpl; intros H; [reflexivity|].
  destruct (String.eqb_spec y x) as [->|Hne]; [tauto|].
  rewrite IH by tauto. reflexivity.
Qed.

(** X3.  The encoding succeeds exactly for a BMI category of the select
    box.  For any other category the submission raises [ValueError]
    whatever the model is, and returns no log. *)
Theorem bmi_category_outside_options (u : UserInput) :
  (returns (input_data u) = true <-> In (bmi_category u) BMI_OPTIONS)
  /\ (~ In (bmi_category u) BMI_OPTIONS ->
      forall model logs,
        classify model u = Raise ValueError
        /\ submitted model logs u = Raise ValueError).
Proof.
  split.
  - unfold input_data, bmi_val. rewrite <- index_In.
    destruct (index (bmi_category u) BMI_OPTIONS); reflexivity.
  - intros Hout model logs.
    unfold submitted, classify, prediction, input_data, bmi_val.
    rewrite (index_not_In _ _ Hout). split; reflexivity.
Qed.

Lemma bmi_category_outside_options_witness :
  classify (fun _ => [0.1; 0.2; 0.7]%Q)
    (mkUserInput "Male" 25 6 5 5 5 "normal" 5000)
  = Raise ValueError
  /\ submitted (fun _ => [0.1; 0.2; 0.7]%Q) []
       (mkUserInput "Male" 25 6 5 5 5 "normal" 5000)
     = Raise ValueError.
Proof.
  apply (proj2 (bmi_category_outside_options
                  (mkUserInput "Male" 25 6 5 5 5 "normal" 5000))).
  simpl. intros [H|[H|[H|[H|[]]]]]; discriminate H.
Defined.

(** X4.  The class index the blending looks up with
    [list(label_map.values()).index] is the key under which [label_map]
    holds the label, and conversely. *)
Theorem label_map_index (i : nat) (label : string) :
  getitem label_map i = Ret label
  <-> index label (values label_map) = Ret i.
Proof.
  split.
  - destruct i as [|[|[|i]]]; simpl; intros [= <-]; reflexivity.
  - unfold values, label_map. cbn [map snd index].
    destruct (String.eqb_spec "No Disorder" label) as [<-|_];
      [intros [= <-]; reflexivity|].
    destruct (String.eqb_spec "Anxiety" label) as [<-|_];
      [intros [= <-]; reflexivity|].
    destruct (String.eqb_spec "Depression" label) as [<-|_];
      [intros [= <-]; reflexivity|].
    discriminate.
Qed.

(** ** The submission and the scores it shows *)

Lemma np_max_top (a : list Q) (i : nat) :
  np_argmax a = Ret i ->
  exists top, a !! i = Some top /\ np_max a = Ret top
    /\ forall j y, a !! j = Some y -> (y <= top)%Q.
Proof.
  intros Hi.
  destruct (np_max_at_argmax _ _ Hi) as (top & Htop & Hmax).
  destruct (np_argmax_first_max _ _ Hi) as (x & Hx & Hle & _).
  exists top. repeat split; try assumption.
  replace top with x by congruence. assumption.
Qed.

Lemma blend_strict_max (idx : nat) (p : list Q) :
  (idx < length p)%nat ->
  (forall j score, p !! j = Some score -> (0 <= score <= 1)%Q) ->
  np_argmax (blend idx p) = Ret idx.
Proof.
  intros Hidx Hrange.
  apply np_argmax_strict_max with (x := 0.7%Q).
  - now apply blend_lookup_eq.
  - intros j y Hj Hy. rewrite blend_lookup_ne in Hy by assumption.
    destruct (p !! j) as [score|] eqn:E; simpl in Hy; [|discriminate].
    injection Hy as <-. specialize (Hrange _ _ E). lra.
Qed.

Lemma submitted_classify (model : list Q -> list Q) (u : UserInput)
    (logs : list LogEntry) (label : string) (cs : list Q) (top : Q) :
  classify model u = Ret (label, cs) -> np_max cs = Ret top ->
  submitted model logs u
  = Ret (logs ++ [mkLogEntry label top u], (label, cs), generateTips u).
Proof.
  intros Hc Hmax. unfold submitted. rewrite Hc. cbn [bind].
  now rewrite Hmax.
Qed.

Lemma init_logs_lookup (ss : session_state) :
  init_logs ss !! "logs" = Some (logs_of ss).
Proof.
  unfold init_logs, logs_of.
  destruct (ss !! "logs") eqn:E; [now rewrite E|].
  now rewrite lookup_insert_eq.
Qed.

Lemma logs_of_init_logs (ss : session_state) :
  logs_of (init_logs ss) = logs_of ss.
Proof. unfold logs_of at 1. now rewrite init_logs_lookup. Qed.

Lemma logs_of_insert (ss : session_state) (logs : list LogEntry) :
  logs_of (<["logs" := logs]> ss) = logs.
Proof. unfold logs_of. now rewrite lookup_insert_eq. Qed.

(** X5.  With a BMI category of the select box and three scores from the
    model, the classification of lines 68-98 does not raise and gives
    three scores, and the run leaves the session log longer by exactly
    one entry, after the entries already there, holding the label, the
    top score and the submitted form values.  (The entry is written at
    line 101, before the charts are drawn; what the chart calls do
    afterwards does not change the log.) *)
Theorem submission_logged (model : list Q -> list Q) (u : UserInput)
    (p : list Q) (ss : session_state) :
  prediction model u = Ret p -> length p = 3%nat ->
  exists label cs top,
    classify model u = Ret (label, cs)
    /\ length cs = 3%nat
    /\ np_max cs = Ret top
    /\ logs_of (rerun model ss (Some u))
       = logs_of ss ++ [mkLogEntry label top u].
Proof.
  intros Hp Hlen.
  pose proof (classify_prediction _ _ _ Hp) as Hc.
  assert (H : exists label cs,
             hybrid u p = Ret (label, cs) /\ length cs = 3%nat).
  { destruct (override u) as [o|] eqn:Ho.
    - destruct (hybrid_override u p o Hlen Ho) as (idx & _ & _ & _ & Hh).
      exists o, (blend idx p). now rewrite length_blend.
    - destruct (hybrid_no_override u p Hlen Ho) as (i & lbl & _ & _ & Hh).
      eauto. }
  destruct H as (label & cs & Hh & Hcs). rewrite Hh in Hc.
  destruct (np_argmax_nonempty cs) as [i Hi].
  { intros ->. discriminate. }
  destruct (np_max_top _ _ Hi) as (top & _ & Hmax & _).
  exists label, cs, top. repeat (split; [assumption|]).
  unfold rerun.
  rewrite (submitted_classify _ _ _ _ _ _ Hc Hmax).
  now rewrite logs_of_insert, logs_of_init_logs.
Qed.

Lemma submission_logged_witness :
  exists label cs top,
    classify (fun _ => [0.1; 0.2; 0.7]%Q) example_input = Ret (label, cs)
    /\ length cs = 3%nat
    /\ np_max cs = Ret top
    /\ logs_of (rerun (fun _ => [0.1; 0.2; 0.7]%Q) ∅ (Some example_input))
       = logs_of ∅ ++ [mkLogEntry label top example_input].
Proof.
  apply (submission_logged _ example_input [0.1; 0.2; 0.7]%Q ∅);
    reflexivity.
Defined.

(** X6.  For three model scores between 0 and 1 the confidence written
    to the log is the returned score of the logged label, and no
    returned score is larger: with or without an override, the label the
    log shows is the one its "Top Confidence" belongs to. *)
Theorem logged_confidence_of_label (model : list Q -> list Q)
    (u : UserInput) (p : list Q) :
  prediction model u = Ret p -> length p = 3%nat ->
  (forall j score, p !! j = Some score -> (0 <= score <= 1)%Q) ->
  exists idx label cs top,
    classify model u = Ret (label, cs)
    /\ getitem label_map idx = Ret label
    /\ cs !! idx = Some top
    /\ (forall j y, cs !! j = Some y -> (y <= top)%Q)
    /\ (forall logs,
          submitted model logs u
          = Ret (logs ++ [mkLogEntry label top u], (label, cs),
                 generateTips u)).
Proof.
  intros Hp Hlen Hrange.
  pose proof (classify_prediction _ _ _ Hp) as Hc.
  destruct (override u) as [o|] eqn:Ho.
  - destruct (hybrid_override u p o Hlen Ho) as (idx & Hidx & _ & Hget & Hh).
    rewrite Hh in Hc.
    assert (Harg : np_argmax (blend idx p) = Ret idx)
      by (apply blend_strict_max; [lia | assumption]).
    destruct (np_max_top _ _ Harg) as (top & Htop & Hmax & Hle).
    exists idx, o, (blend idx p), top.
    repeat (split; [assumption|]).
    intros logs. now apply submitted_classify.
  - destruct (hybrid_no_override u p Hlen Ho) as (i & lbl & Hi & Hlbl & Hh).
    rewrite Hh in Hc.
    destruct (np_max_top _ _ Hi) as (top & Htop & Hmax & Hle).
    exists i, lbl, p, top.
    repeat (split; [assumption|]).
    intros logs. now apply submitted_classify.
Qed.

Lemma logged_confidence_of_label_witness :
  exists idx label cs top,
    classify (fun _ => [0.5; 0.25; 0.25]%Q) neutral_input = Ret (label, cs)
    /\ getitem label_map idx = Ret label
    /\ cs !! idx = Some top
    /\ (forall j y, cs !! j = Some y -> (y <= top)%Q)
    /\ (forall logs,
          submitted (fun _ => [0.5; 0.25; 0.25]%Q) logs neutral_input
          = Ret (logs ++ [mkLogEntry label top neutral_input], (label, cs),
                 generateTips neutral_input)).
Proof.
  apply (logged_confidence_of_label _ neutral_input [0.5; 0.25; 0.25]%Q).
  - reflexivity.
  - reflexivity.
  - intros [|[|[|j]]] score H; simpl in H; try discriminate;
      injection H as <-; split; vm_compute; discriminate.
Defined.

(** X7.  Scores between 0 and 1 stay between 0 and 1: whatever rule
    fires, every score handed to the charts lies in the range of the bar
    chart's axis (line 153). *)
Theorem scores_stay_in_range (model : list Q -> list Q) (u : UserInput)
    (p : list Q) (label : string) (cs : list Q) :
  prediction model u = Ret p ->
  (forall j score, p !! j = Some score -> (0 <= score <= 1)%Q) ->
  classify model u = Ret (label, cs) ->
  forall j y, cs !! j = Some y -> (0 <= y <= 1)%Q.
Proof.
  intros Hp Hrange Hc.
  rewrite (classify_prediction _ _ _ Hp) in Hc.
  unfold hybrid in Hc.
  destruct (np_argmax p) as [i|]; cbn [bind] in Hc; [|discriminate].
  destruct (getitem label_map i) as [lbl|]; cbn [bind] in Hc; [|discriminate].
  destruct (override u) as [o|] eqn:Ho.
  - rewrite (override_truthy _ _ Ho) in Hc.
    destruct (index o (values label_map)) as [idx|]; cbn [bind] in Hc;
      [|discriminate].
    unfold setitem in Hc.
    destruct (idx <? length _)%nat eqn:Hlt; cbn [bind] in Hc; [|discriminate].
    injection Hc as _ <-.
    apply Nat.ltb_lt in Hlt. rewrite length_map in Hlt.
    intros j y Hy. fold (blend idx p) in Hy.
    destruct (decide (j = idx)) as [->|Hne].
    + rewrite blend_lookup_eq in Hy by assumption.
      injection Hy as <-. split; vm_compute; discriminate.
    + rewrite blend_lookup_ne in Hy by assumption.
      destruct (p !! j) as [score|] eqn:E; simpl in Hy; [|discriminate].
      injection Hy as <-. specialize (Hrange _ _ E). lra.
  - injection Hc as _ <-. assumption.
Qed.

Lemma scores_stay_in_range_witness : (0 <= 0.21 <= 1)%Q.
Proof.
  apply (scores_stay_in_range (fun _ => [0.1; 0.2; 0.7]%Q) example_input
           [0.1; 0.2; 0.7]%Q "Anxiety" [0.03; 0.7; 0.21]%Q) with (j := 2%nat).
  - reflexivity.
  - intros [|[|[|j]]] score H; simpl in H; try discriminate;
      injection H as <-; split; vm_compute; discriminate.
  - reflexivity.
  - reflexivity.
Defined.

(** ** Which tips appear *)

(** Two rules of the table with the same tip are the same rule. *)
Lemma rule_of_tip (c c' : UserInput -> bool) (t : string) :
  In (c, t) tip_rules -> In (c', t) tip_rules -> c' = c.
Proof.
  intros H1 H2. simpl in H1, H2.
  destruct H1 as [H1|[H1|[H1|[H1|[H1|[H1|[H1|[H1|[]]]]]]]]];
    destruct H2 as [H2|[H2|[H2|[H2|[H2|[H2|[H2|[H2|[]]]]]]]]];
    pose proof (f_equal fst H1) as F1; pose proof (f_equal fst H2) as F2;
    pose proof (f_equal snd H1) as S1; pose proof (f_equal snd H2) as S2;
    cbn [fst snd] in F1, F2, S1, S2;
    first [ now rewrite <- F1, <- F2
          | exfalso; rewrite <- S2 in S1; revert S1;
            apply String.eqb_neq; vm_compute; reflexivity ].
Qed.

Lemma In_generateTips (c : UserInput -> bool) (t : string) (u : UserInput) :
  In (c, t) tip_rules -> (In t (generateTips u) <-> c u = true).
Proof.
  intros Hin. rewrite generateTips_tips_by_rules, In_tips_by_rules.
  split.
  - intros (c' & Hin' & Hc). now rewrite <- (rule_of_tip _ _ _ Hin Hin').
  - intros Hc. eauto.
Qed.

(** X9.  A tip is among the generated tips exactly when its threshold is
    crossed: each tip tells the user one fact about the submitted
    values, and tells it whenever the fact holds. *)
Theorem tips_by_threshold (u : UserInput) :
  (In Tips.low_sleep (generateTips u) <-> (sleep_duration u < 6)%Q)
  /\ (In Tips.oversleep (generateTips u) <-> (9 < sleep_duration u)%Q)
  /\ (In Tips.sleep_quality (generateTips u) <-> quality_of_sleep u < 4)
  /\ (In Tips.activity (generateTips u) <-> physical_activity u = 0)
  /\ (In Tips.stress (generateTips u) <-> 6 < stress_level u)
  /\ (In Tips.steps (generateTips u) <-> daily_steps u < 3000)
  /\ (In Tips.diet (generateTips u) <-> bmi_category u = "Obese")
  /\ (In Tips.elder_activity (generateTips u)
      <-> 60 < age u /\ physical_activity u < 3).
Proof.
  split; [by_rule_with In_generateTips; apply Qlt_bool_iff|].
  split.
  { by_rule_with In_generateTips.
    rewrite andb_true_iff, negb_true_iff, Qlt_bool_false, Qlt_bool_iff.
    split; [tauto|]. intros H. split; [lra | assumption]. }
  split; [by_rule_with In_generateTips; apply Z.ltb_lt|].
  split; [by_rule_with In_generateTips; apply Z.eqb_eq|].
  split; [by_rule_with In_generateTips; apply Z.gtb_lt|].
  split; [by_rule_with In_generateTips; apply Z.ltb_lt|].
  split; [by_rule_with In_generateTips; apply String.eqb_eq|].
  by_rule_with In_generateTips. rewrite andb_true_iff, Z.gtb_lt, Z.ltb_lt. reflexivity.
Qed.

Lemma no_tips_rules (u : UserInput) :
  generateTips u = []
  <-> Forall (fun rule => fst rule u = false) tip_rules.
Proof.
  rewrite generateTips_tips_by_rules. unfold tips_by_rules.
  generalize tip_rules. intros l.
  induction l as [|rule l IH]; cbn [List.filter map].
  - split; [constructor | reflexivity].
  - rewrite Forall_cons.
    destruct (fst rule u); cbn [map].
    + split; [discriminate | intros [? _]; discriminate].
    + rewrite IH. tauto.
Qed.

(** X10.  No tip is generated exactly when every value is within its
    threshold; and since the two sleep tips exclude each other, there
    are never more than seven tips. *)
Theorem tips_empty_and_bounded (u : UserInput) :
  (generateTips u = []
   <-> (6 <= sleep_duration u <= 9)%Q
       /\ 4 <= quality_of_sleep u
       /\ physical_activity u <> 0
       /\ stress_level u <= 6
       /\ 3000 <= daily_steps u
       /\ bmi_category u <> "Obese"
       /\ (age u <= 60 \/ 3 <= physical_activity u))
  /\ (length (generateTips u) <= 7)%nat.
Proof.
  split.
  - rewrite no_tips_rules. unfold tip_rules.
    rewrite !Forall_cons, Forall_nil. cbn [fst].
    rewrite !andb_false_iff, negb_false_iff, Z.gtb_ltb, Z.gtb_ltb.
    rewrite !Qlt_bool_false, Qlt_bool_iff, !Z.ltb_ge, Z.eqb_neq,
      String.eqb_neq.
    intuition (first [lia | lra]).
  - unfold generateTips, generate_input_tips, append.
    destruct (Qlt_bool (sleep_duration u) 6);
      destruct (Qlt_bool 9 (sleep_duration u));
      destruct (quality_of_sleep u <? 4);
      destruct (physical_activity u =? 0);
      destruct (stress_level u >? 6);
      destruct (daily_steps u <? 3000);
      destruct (String.eqb (bmi_category u) "Obese");
      destruct (age u >? 60);
      destruct (physical_activity u <? 3);
      cbn [app length andb]; lia.
Qed.

(** ** What the page shows *)

Lemma classify_label (model : list Q -> list Q) (u : UserInput)
    (label : string) (cs : list Q) :
  classify model u = Ret (label, cs) ->
  label = "No Disorder" \/ label = "Anxiety" \/ label = "Depression".
Proof.
  unfold classify, prediction. intros H.
  destruct (input_data u) as [x|]; cbn [bind] in H; [|discriminate].
  apply hybrid_result in H as (Hin & _). simpl in Hin. intuition.
Qed.

(** X11.  For every label a classification returns, the page shows one
    suggested action, of the kind that goes with the label: a success
    box and a green mark for "No Disorder", a warning and an orange mark
    for "Anxiety", an error box and a red mark for "Depression".  The
    chain of lines 124-129 has no [else], but no label falls through
    it. *)
Theorem result_display_action (model : list Q -> list Q) (u : UserInput)
    (label : string) (cs : list Q) :
  classify model u = Ret (label, cs) ->
  (label = "No Disorder" /\ color label = "🟢"
   /\ suggested_action label = [success Texts.doing_well])
  \/ (label = "Anxiety" /\ color label = "🟠"
      /\ suggested_action label = [warning Texts.try_mindfulness])
  \/ (label = "Depression" /\ color label = "🔴"
      /\ suggested_action label = [error Texts.reach_out]).
Proof.
  intros H.
  destruct (classify_label _ _ _ _ H) as [-> | [-> | ->]];
    [left | right; left | right; right]; repeat split.
Qed.

Lemma result_display_action_witness :
  ("Anxiety" = "No Disorder" /\ color "Anxiety" = "🟢"
   /\ suggested_action "Anxiety" = [success Texts.doing_well])
  \/ ("Anxiety" = "Anxiety" /\ color "Anxiety" = "🟠"
      /\ suggested_action "Anxiety" = [warning Texts.try_mindfulness])
  \/ ("Anxiety" = "Depression" /\ color "Anxiety" = "🔴"
      /\ suggested_action "Anxiety" = [error Texts.reach_out]).
Proof.
  apply (result_display_action (fun _ => [0.1; 0.2; 0.7]%Q) example_input
           "Anxiety" [0.03; 0.7; 0.21]%Q).
  reflexivity.
Defined.

Lemma markdown_inj (a b : string) : markdown a = markdown b -> a = b.
Proof. intros H. now injection H. Qed.

Lemma In_markdown_suggested_action (m result : string) :
  ~ In (markdown m) (suggested_action result).
Proof.
  unfold suggested_action.
  destruct (String.eqb result "No Disorder");
    [|destruct (String.eqb result "Anxiety");
      [|destruct (String.eqb result "Depression")]];
    cbn [In]; intuition discriminate.
Qed.

Lemma In_markdown_tips_section (m : string) (tips : list string) :
  In (markdown m) (tips_section tips)
  <-> (tips = [] /\ m = Texts.look_great)
      \/ exists tip, In tip tips /\ m = ("- " ++ tip)%string.
Proof.
  unfold tips_section. destruct tips as [|t tips].
  - cbn [In]. split.
    + intros [H|[]]. apply markdown_inj in H. auto.
    + intros [[_ ->] | (tip & [] & _)]. auto.
  - rewrite in_map_iff. split.
    + intros (tip & H & Hin). apply markdown_inj in H. eauto.
    + intros [[H _] | (tip & Hin & ->)]; [discriminate|eauto].
Qed.

Lemma In_markdown_result_display (m result : string) (tips : list string) :
  In (markdown m) (result_display result tips)
  <-> m = "### 🧭 Suggested Early Action Steps"
      \/ m = "### 🧪 Personalized Wellness Tips Based on Your Input"
      \/ In (markdown m) (tips_section tips).
Proof.
  unfold result_display. rewrite !in_app_iff. cbn [In].
  pose proof (In_markdown_suggested_action m result) as Hact.
  split.
  - intros [[H|[H|[H|[]]]] | [H | [[H|[]] | H]]];
      try discriminate H; try contradiction; auto;
      apply markdown_inj in H; auto.
  - intros [-> | [-> | H]]; auto 10.
Qed.

(** X12.  The tips section of the page shows the "look great" message
    exactly when no tip was generated, and a bullet "- tip" exactly for
    the generated tips, whatever the label is. *)
Theorem result_display_tips (result : string) (tips : list string) :
  (In (markdown Texts.look_great) (result_display result tips)
   <-> tips = [])
  /\ (forall tip,
        In (markdown ("- " ++ tip)%string) (result_display result tips)
        <-> In tip tips).
Proof.
  split; [|intros tip];
    rewrite In_markdown_result_display, In_markdown_tips_section.
  - split.
    + intros [H | [H | [[H _] | (tip & _ & H)]]];
        try assumption; exfalso; revert H;
        apply String.eqb_neq; vm_compute; reflexivity.
    + intros ->. auto.
  - split.
    + intros [H | [H | [[_ H] | (tip' & Hin & H)]]].
      * cbn [String.append] in H. discriminate H.
      * cbn [String.append] in H. discriminate H.
      * unfold Texts.look_great in H. cbn [String.append] in H.
        discriminate H.
      * injection H as H. change (tip = tip') in H. now subst tip'.
    + intros Hin. right. right. right. eauto.
Qed.

(** ** The log over a session *)

Lemma classify_np_max (model : list Q -> list Q) (u : UserInput)
    (label : string) (cs : list Q) :
  classify model u = Ret (label, cs) -> exists top, np_max cs = Ret top.
Proof.
  unfold classify, prediction. intros H.
  destruct (input_data u) as [x|]; cbn [bind] in H; [|discriminate].
  apply hybrid_result in H as (_ & Hlen & Hne).
  destruct cs as [|c cs]; simpl; [|eauto].
  destruct (model x); [congruence | discriminate].
Qed.

(** What one run of the script adds to the log. *)
Lemma rerun_logs (model : list Q -> list Q) (ss : session_state)
    (form : option UserInput) :
  exists new,
    logs_of (rerun model ss form) = logs_of ss ++ new
    /\ map Input new
       = List.filter (fun u => returns (classify model u)) (submissions [form])
    /\ Forall (fun entry => exists cs,
                 classify model (Input entry) = Ret (Predicted entry, cs)
                 /\ np_max cs = Ret (Confidence entry)) new.
Proof.
  unfold rerun. destruct form as [u|].
  - rewrite logs_of_init_logs.
    destruct (classify model u) as [[label cs]|e] eqn:Hc.
    + destruct (classify_np_max _ _ _ _ Hc) as [top Hmax].
      rewrite (submitted_classify _ _ _ _ _ _ Hc Hmax).
      exists [mkLogEntry label top u].
      rewrite logs_of_insert. split; [reflexivity|].
      split.
      * cbn. now rewrite Hc.
      * apply Forall_cons. split; [|constructor]. cbn. eauto.
    + exists []. unfold submitted. rewrite Hc. cbn [bind].
      rewrite logs_of_init_logs, app_nil_r. split; [reflexivity|].
      split; [|constructor]. cbn. now rewrite Hc.
  - exists []. rewrite logs_of_init_logs, app_nil_r.
    split; [reflexivity|]. split; [reflexivity|constructor].
Qed.

(** X13.  The session log is append-only and complete: after any
    sequence of runs of the script the log is the log before, followed
    by one entry for each submission whose classification did not raise,
    in the order of submission; runs without a submission and
    submissions that raise add nothing.  Every new entry holds the label
    and the top score the classification gave for the form values it
    records. *)
Theorem session_log (model : list Q -> list Q) (ss : session_state)
    (forms : list (option UserInput)) :
  exists new,
    logs_of (session model ss forms) = logs_of ss ++ new
    /\ map Input new
       = List.filter (fun u => returns (classify model u)) (submissions forms)
    /\ Forall (fun entry => exists cs,
                 classify model (Input entry) = Ret (Predicted entry, cs)
                 /\ np_max cs = Ret (Confidence entry)) new.
Proof.
  revert ss. induction forms as [|form forms IH]; intros ss.
  - exists []. rewrite app_nil_r. repeat split; constructor.
  - destruct (rerun_logs model ss form) as (new1 & Hlogs1 & Hin1 & Hall1).
    destruct (IH (rerun model ss form)) as (new2 & Hlogs2 & Hin2 & Hall2).
    exists (new1 ++ new2). split; [|split].
    + cbn [session fold_left]. unfold session in Hlogs2.
      rewrite Hlogs2, Hlogs1. now rewrite app_assoc.
    + rewrite map_app, Hin1, Hin2, <- List.filter_app. f_equal.
      destruct form; reflexivity.
    + apply Forall_app. auto.
Qed.

(** The log of a fresh session after a failed submission, a run without
    submission and two successful submissions. *)
Example session_log_example :
  map Input
    (logs_of (session (fun _ => [0.1; 0.2; 0.7]%Q) ∅
                [Some (mkUserInput "Male" 25 6 5 5 5 "normal" 5000);
                 None; Some example_input; Some neutral_input]))
  = [example_input; neutral_input].
Proof. vm_compute. reflexivity. Qed.

(** X14.  In the displayed session log the newest entry comes first and
    the headings count down: the entry of the k-th submission of the
    session (counting from 1) is headed "Prediction #k" and stands k-th
    from the bottom.  There are as many rows as entries. *)
Theorem session_log_rows_numbering (logs : list LogEntry) :
  length (session_log_rows logs) = length logs
  /\ (forall (k : nat) (entry : LogEntry),
        logs !! k = Some entry ->
        session_log_rows logs !! (length logs - 1 - k)%nat
        = Some (Z.of_nat k + 1, entry)).
Proof.
  unfold session_log_rows. destruct logs as [|e0 logs0] eqn:E.
  - split; [reflexivity|]. intros k entry H. discriminate H.
  - rewrite <- E. clear E. split.
    + now rewrite length_imap, length_reverse.
    + intros k entry Hk.
      assert (Hlt : (k < length logs)%nat) by (eapply lookup_lt_Some; eauto).
      rewrite list_lookup_imap, reverse_lookup by lia.
      replace (length logs - S (length logs - 1 - k))%nat with k by lia.
      rewrite Hk. cbn. do 2 f_equal. lia.
Qed.

Lemma session_log_rows_numbering_witness :
  session_log_rows
    [mkLogEntry "Anxiety" 0.7 example_input;
     mkLogEntry "Depression" 0.5 neutral_input]
  !! (2 - 1 - 1)%nat
  = Some (Z.of_nat 1 + 1, mkLogEntry "Depression" 0.5 neutral_input).
Proof.
  apply (proj2 (session_log_rows_numbering
                  [mkLogEntry "Anxiety" 0.7 example_input;
                   mkLogEntry "Depression" 0.5 neutral_input]) 1%nat).
  reflexivity.
Defined.
